(** * ResQnova: the earthquake exposure pipeline of [app.py]

    A shallow embedding of the functions of [app.py] that fetch the USGS feed,
    estimate the number of affected people per event and keep the two shared
    containers [heatmap_data] and [population_data] up to date, followed by the
    notions the specification uses and by its properties, checked against the
    embedding.

    Conventions of the embedding:
    - a Python [float] is a binary64 value, the primitive [float] of Rocq;
      numbers of the feed are embedded as binary64 values (Python reads an
      integer literal of the feed as an [int], whose arithmetic agrees with
      binary64 as long as the values stay below 2^53);
    - a Python value that comes out of the JSON payload is a [pyval];
    - a call that can raise returns a [result]; the messages written with
      [print] are not part of the model;
    - [get_population_density] reads a raster file: it is a parameter of the
      development, a function from the coordinates to the sample (or [None]). *)

From Stdlib Require Import Floats ZArith List Bool String Ascii Lia.
Import ListNotations.

Set Warnings "-inexact-float,-register-all".

(** * The program *)

(** ** Exceptions and results *)

Inductive exn : Type :=
| TypeError
| KeyError
| IndexError
| ValueError
| OverflowError.

Inductive result (A : Type) : Type :=
| Ok (a : A)
| Raise (e : exn).

Arguments Ok {A} a.
Arguments Raise {A} e.

Definition bind {A B : Type} (r : result A) (k : A -> result B) : result B :=
  match r with
  | Ok a => k a
  | Raise e => Raise e
  end.

Notation "x <- r ;; k" := (bind r (fun x => k))
  (at level 61, r at next level, right associativity).

(** [try: ... except Exception: ...; return None] *)
Definition catch {A : Type} (r : result A) : option A :=
  match r with
  | Ok a => Some a
  | Raise _ => None
  end.

(** ** Python floats *)

Module PyFloat.

(** [np.pi], the binary64 value nearest to pi. *)
Definition np_pi : float := 0x1.921fb54442d18p+1%float.

(** [int(x)]: the integer part of [x], rounded toward zero; [ValueError] on a
    NaN and [OverflowError] on an infinity. *)
Definition to_int (x : float) : result Z :=
  match Prim2SF x with
  | S754_nan => Raise ValueError
  | S754_infinity _ => Raise OverflowError
  | S754_zero _ => Ok 0%Z
  | S754_finite s m e => Ok (cond_Zopp s (Z.shiftl (Zpos m) e))
  end.

(** [x ** 2] on floats: the square, rounded to nearest (the [pow] of the C
    library is taken to round a square correctly, as it does whenever the
    square is a binary64 value); a finite [x] whose square is out of range
    raises [OverflowError], an infinite or NaN [x] is squared silently. *)
Definition pow2 (x : float) : result float :=
  let y := (x * x)%float in
  if is_finite x && is_infinity y then Raise OverflowError else Ok y.

End PyFloat.

(** ** The estimate of [estimate_affected_people] *)

(** The function returns the string ["Unknown"] or an [int]. *)
Inductive affected : Type :=
| Unknown
| People (n : Z).

Section Estimator.

(** [get_population_density(lat, lon)]: the raster sample at the coordinates,
    [None] when the raster cannot be read there (every exception is caught
    inside the function). *)
Variable get_population_density : float -> float -> option float.

Definition estimate_affected_people (lat lon magnitude : float) : result affected :=
  match get_population_density lat lon with
  | None => Ok Unknown
  | Some population_density =>
      let impact_radius_km := (magnitude * 10)%float in
      sq <- PyFloat.pow2 impact_radius_km ;;
      let impact_area_km2 := (PyFloat.np_pi * sq)%float in
      let affected_people := (population_density * impact_area_km2)%float in
      n <- PyFloat.to_int affected_people ;;
      Ok (People n)
  end.

End Estimator.

(** ** The shared dataset: [heatmap_data] and [population_data] *)

(** An event of [usgs_data] is the tuple [(lat, lon, magnitude)]. *)
Definition event : Type := float * float * float.

(** A key of [population_data] is the tuple [(lat, lon)]. *)
Definition coords : Type := float * float.

Definition coords_of (e : event) : coords :=
  let '(lat, lon, _) := e in (lat, lon).

Definition magnitude_of (e : event) : float :=
  let '(_, _, magnitude) := e in magnitude.

(** A Python [dict] keyed by coordinates, in insertion order. Two keys are the
    same key when their components are equal for [==] on floats: [0.0] and
    [-0.0] are one key, and a NaN is equal to no float. *)
Module PyDict.

Definition key_eqb (k k' : coords) : bool :=
  ((fst k =? fst k') && (snd k =? snd k'))%float.

Definition t (V : Type) : Type := list (coords * V).

(** [d[k] = v]: the value of an existing key is replaced in place, a new key
    is added at the end. *)
Fixpoint setitem {V : Type} (k : coords) (v : V) (d : t V) : t V :=
  match d with
  | [] => [(k, v)]
  | (k', v') :: d' =>
      if key_eqb k' k then (k', v) :: d' else (k', v') :: setitem k v d'
  end.

(** [d.get(k)] *)
Fixpoint get {V : Type} (k : coords) (d : t V) : option V :=
  match d with
  | [] => None
  | (k', v') :: d' => if key_eqb k' k then Some v' else get k d'
  end.

Definition keys {V : Type} (d : t V) : list coords := map fst d.

(** [k in ks], for a list [ks] of keys. *)
Definition mem (k : coords) (ks : list coords) : bool :=
  existsb (fun k' => key_eqb k' k) ks.

End PyDict.

(** The two module-level containers. *)
Record dataset : Type := Dataset {
  heatmap_data : list event;
  population_data : PyDict.t affected
}.

Definition empty_dataset : dataset := Dataset [] [].

Section Pipeline.

Variable get_population_density : float -> float -> option float.

(** The body of the [for] loop of [process_usgs_data], event after event; an
    exception of [estimate_affected_people] leaves the loop with the event
    already appended to [heatmap_data]. *)
Fixpoint process_events (usgs_data : list event) (st : dataset) : dataset * result unit :=
  match usgs_data with
  | [] => (st, Ok tt)
  | (lat, lon, magnitude) :: rest =>
      let heat := heatmap_data st ++ [(lat, lon, magnitude)] in
      match estimate_affected_people get_population_density lat lon magnitude with
      | Raise e => (Dataset heat (population_data st), Raise e)
      | Ok affected_people =>
          process_events rest
            (Dataset heat (PyDict.setitem (lat, lon) affected_people (population_data st)))
      end
  end.

(** [process_usgs_data(usgs_data)]: an empty list (or [None]) is falsy and
    leaves the containers untouched; otherwise both are cleared and filled
    again. *)
Definition process_usgs_data (usgs_data : list event) (st : dataset) : dataset * result unit :=
  match usgs_data with
  | [] => (st, Ok tt)
  | _ :: _ => process_events usgs_data (Dataset [] [])
  end.

End Pipeline.

(** ** The map of [create_heatmap] *)

(** What [create_heatmap] puts on the map: the heat layer, one marker per item
    of [population_data], and the alert for the event of largest magnitude. *)
Record rendered_map : Type := RenderedMap {
  heat_layer : list event;
  markers : list (coords * affected);
  alert : option event
}.

(** [max(heatmap_data, key=lambda x: x[2])]: the first event whose magnitude
    no later one exceeds. *)
Definition most_extreme (first : event) (others : list event) : event :=
  fold_left
    (fun best x => if (magnitude_of best <? magnitude_of x)%float then x else best)
    others first.

Definition create_heatmap (heatmap_data : list event)
    (population_data : PyDict.t affected) : rendered_map :=
  RenderedMap heatmap_data population_data
    match heatmap_data with
    | [] => None
    | first :: others => Some (most_extreme first others)
    end.

(** The view [home] renders the two containers as they are when it runs. *)
Definition home (st : dataset) : rendered_map :=
  create_heatmap (heatmap_data st) (population_data st).

(** ** The feed: [fetch_usgs_earthquake_data] *)

(** The values [response.json()] can return. *)
Inductive pyval : Type :=
| PyNone
| PyBool (b : bool)
| PyNum (x : float)
| PyStr (s : string)
| PyList (l : list pyval)
| PyDict (d : list (string * pyval)).

Module Py.

Fixpoint lookup (k : string) (d : list (string * pyval)) : option pyval :=
  match d with
  | [] => None
  | (k', v) :: d' => if String.eqb k' k then Some v else lookup k d'
  end.

(** [x[k]] for a string [k]: only a [dict] can be subscripted with a string. *)
Definition getitem (x : pyval) (k : string) : result pyval :=
  match x with
  | PyDict d =>
      match lookup k d with
      | Some v => Ok v
      | None => Raise KeyError
      end
  | _ => Raise TypeError
  end.

(** [x[i]] for an index [i >= 0]: an element of a list, a character of a
    string; a [dict] of the payload has string keys only. *)
Definition index (x : pyval) (i : nat) : result pyval :=
  match x with
  | PyList l =>
      match nth_error l i with
      | Some v => Ok v
      | None => Raise IndexError
      end
  | PyStr s =>
      match String.get i s with
      | Some c => Ok (PyStr (String c EmptyString))
      | None => Raise IndexError
      end
  | PyDict _ => Raise KeyError
  | _ => Raise TypeError
  end.

Fixpoint chars (s : string) : list pyval :=
  match s with
  | EmptyString => []
  | String c s' => PyStr (String c EmptyString) :: chars s'
  end.

(** [for item in x]: the elements of a list, the keys of a [dict], the
    characters of a string. *)
Definition iter (x : pyval) : result (list pyval) :=
  match x with
  | PyList l => Ok l
  | PyDict d => Ok (map (fun kv => PyStr (fst kv)) d)
  | PyStr s => Ok (chars s)
  | _ => Raise TypeError
  end.

End Py.

(** What [requests.get] gives: an exception, or a response with its status
    code and what [response.json()] does on its body. *)
Record response : Type := Response {
  status_code : Z;
  json : result pyval
}.

Inductive http_outcome : Type :=
| RequestException
| Received (r : response).

(** The tuple [(lat, lon, magnitude)] as read from a feature. *)
Definition record : Type := pyval * pyval * pyval.

(** The body of the [for feature in data["features"]] loop. *)
Definition read_feature (feature : pyval) : result record :=
  geometry <- Py.getitem feature "geometry" ;;
  coordinates <- Py.getitem geometry "coordinates" ;;
  lat <- Py.index coordinates 1 ;;
  lon <- Py.index coordinates 0 ;;
  properties <- Py.getitem feature "properties" ;;
  magnitude <- Py.getitem properties "mag" ;;
  Ok (lat, lon, magnitude).

Fixpoint read_features (features : list pyval) : result (list record) :=
  match features with
  | [] => Ok []
  | feature :: rest =>
      r <- read_feature feature ;;
      earthquakes <- read_features rest ;;
      Ok (r :: earthquakes)
  end.

(** [fetch_usgs_earthquake_data()]: the list of tuples, or [None] when the
    status is not 200 or anything in the [try] block raised. *)
Definition fetch_usgs_earthquake_data (o : http_outcome) : option (list record) :=
  match o with
  | RequestException => None
  | Received response =>
      if (status_code response =? 200)%Z then
        catch (data <- json response ;;
               features <- Py.getitem data "features" ;;
               items <- Py.iter features ;;
               read_features items)
      else None
  end.

(** ** The refresh cycle of [update_heatmap] *)

(** The events of a list of tuples whose components are all numbers; the
    estimate and the dataset are modelled for such tuples. *)
Definition event_of_record (r : record) : option event :=
  match r with
  | (PyNum lat, PyNum lon, PyNum magnitude) => Some (lat, lon, magnitude)
  | _ => None
  end.

Fixpoint events_of_records (rs : list record) : option (list event) :=
  match rs with
  | [] => Some []
  | r :: rs' =>
      match event_of_record r, events_of_records rs' with
      | Some e, Some es => Some (e :: es)
      | _, _ => None
      end
  end.

Section Refresh.

Variable get_population_density : float -> float -> option float.

(** One turn of the [while True] loop of [update_heatmap], up to the sleep:
    the fetched list is processed when it is truthy, that is neither [None]
    nor empty. The result is [None] when the feed holds a tuple that is not
    made of numbers, which this development does not model. *)
Definition update_heatmap_cycle (o : http_outcome) (st : dataset)
  : option (dataset * result unit) :=
  match fetch_usgs_earthquake_data o with
  | None => Some (st, Ok tt)
  | Some [] => Some (st, Ok tt)
  | Some (r :: rs) =>
      match events_of_records (r :: rs) with
      | Some usgs_data => Some (process_usgs_data get_population_density usgs_data st)
      | None => None
      end
  end.

End Refresh.

Section RefreshLoop.

Variable get_population_density : float -> float -> option float.

(** The first turns of the [while True] loop of [update_heatmap], one per
    outcome of [requests.get]. Nothing catches an exception raised inside
    [process_usgs_data]: it ends the loop, and the thread with it. The sleep
    between two turns is not modelled. *)
Fixpoint update_heatmap (outcomes : list http_outcome) (st : dataset)
  : option (dataset * result unit) :=
  match outcomes with
  | [] => Some (st, Ok tt)
  | o :: later =>
      match update_heatmap_cycle get_population_density o st with
      | Some (st', Ok _) => update_heatmap later st'
      | Some (st', Raise e) => Some (st', Raise e)
      | None => None
      end
  end.

End RefreshLoop.

(** ** The refresh as a concurrent reader sees it

    [update_heatmap] runs in a thread of its own while [home] serves requests:
    a request can be served between any two statements of
    [process_usgs_data]. The writer is modelled statement by statement; a
    reader observes the dataset of any configuration the writer goes
    through. *)

(** Where the writer stands in [process_usgs_data]. *)
Inductive writer : Type :=
| Called (usgs_data : list event)
| ClearHeatmap (usgs_data : list event)
| ClearPopulation (usgs_data : list event)
| Loop (rest : list event)
| Estimate (lat lon magnitude : float) (rest : list event)
| Returned
| Raised (e : exn).

Section Writer.

Variable get_population_density : float -> float -> option float.

(** One statement of [process_usgs_data]. *)
Definition step (w : writer) (st : dataset) : option (writer * dataset) :=
  match w with
  | Called [] => Some (Returned, st)
  | Called ((_ :: _) as usgs_data) => Some (ClearHeatmap usgs_data, st)
  | ClearHeatmap usgs_data =>
      Some (ClearPopulation usgs_data, Dataset [] (population_data st))
  | ClearPopulation usgs_data =>
      Some (Loop usgs_data, Dataset (heatmap_data st) [])
  | Loop [] => Some (Returned, st)
  | Loop ((lat, lon, magnitude) :: rest) =>
      Some (Estimate lat lon magnitude rest,
            Dataset (heatmap_data st ++ [(lat, lon, magnitude)]) (population_data st))
  | Estimate lat lon magnitude rest =>
      match estimate_affected_people get_population_density lat lon magnitude with
      | Ok affected_people =>
          Some (Loop rest,
                Dataset (heatmap_data st)
                  (PyDict.setitem (lat, lon) affected_people (population_data st)))
      | Raise e => Some (Raised e, st)
      end
  | Returned | Raised _ => None
  end.

Inductive reaches : writer * dataset -> writer * dataset -> Prop :=
| reaches_here (c : writer * dataset) : reaches c c
| reaches_next (w w' : writer) (st st' : dataset) (c : writer * dataset) :
    step w st = Some (w', st') -> reaches (w', st') c -> reaches (w, st) c.


End Writer.

(** * The notions of the specification *)

(** ** The formula of the estimate *)

Module PySpec.

(** The mathematical floor of a finite binary64 value. *)
Definition floor (x : float) : option Z :=
  match Prim2SF x with
  | S754_nan | S754_infinity _ => None
  | S754_zero _ => Some 0%Z
  | S754_finite s m e => Some (Z.shiftl (cond_Zopp s (Zpos m)) e)
  end.

End PySpec.

(** The formula of the specification, in its words: the impact radius is the
    magnitude times 10, the impact area is pi times the square of the radius,
    and the estimate is the floor of the density times the area. *)
Definition impact_radius_km (magnitude : float) : float := (magnitude * 10)%float.

Definition impact_area_km2 (magnitude : float) : float :=
  (PyFloat.np_pi * (impact_radius_km magnitude * impact_radius_km magnitude))%float.

Definition exposure (density magnitude : float) : float :=
  (density * impact_area_km2 magnitude)%float.


(** ** Signs and equality of binary64 values, on [spec_float] *)

Module SF.

(** The sign of [x] is not negative (a zero or a NaN counts as such). *)
Definition nonneg (x : spec_float) : Prop :=
  match x with
  | S754_finite s _ _ | S754_infinity s => s = false
  | S754_zero _ | S754_nan => True
  end.

(** The outcome of a rounding carries the sign that was given. *)
Definition signed (s : bool) (x : spec_float) : Prop :=
  match x with
  | S754_finite s' _ _ | S754_infinity s' | S754_zero s' => s' = s
  | S754_nan => True
  end.

Definition finite (x : spec_float) : bool :=
  match x with
  | S754_nan | S754_infinity _ => false
  | S754_zero _ | S754_finite _ _ _ => true
  end.

(** What the IEEE equality [SFeqb] identifies. *)
Definition same (x y : spec_float) : Prop :=
  match x, y with
  | S754_zero _, S754_zero _ => True
  | S754_infinity s, S754_infinity s' => s = s'
  | S754_finite s m e, S754_finite s' m' e' => s = s' /\ m = m' /\ e = e'
  | _, _ => False
  end.

End SF.

(** ** Coordinates of a batch *)

(** The coordinates of a batch that are new, in order: those equal to no key in
    [seen] and to no earlier coordinates of the batch. *)
Fixpoint first_seen (seen ks : list coords) : list coords :=
  match ks with
  | [] => []
  | k :: ks' =>
      if PyDict.mem k seen then first_seen seen ks'
      else k :: first_seen (seen ++ [k]) ks'
  end.

(** No coordinates of the batch are equal to a key in [seen] or to earlier
    coordinates of the batch. *)
Fixpoint all_new (seen ks : list coords) : bool :=
  match ks with
  | [] => true
  | k :: ks' => negb (PyDict.mem k seen) && all_new (seen ++ [k]) ks'
  end.



(** The last event of the batch at the coordinates [k]. *)
Fixpoint last_at (k : coords) (usgs_data : list event) : option event :=
  match usgs_data with
  | [] => None
  | e :: rest =>
      match last_at k rest with
      | Some e' => Some e'
      | None => if PyDict.key_eqb (coords_of e) k then Some e else None
      end
  end.

(** ** The feed *)

(** The items the loop of [fetch_usgs_earthquake_data] runs over, when the
    request is answered with status 200 and a body that holds them. *)
Definition features_of (o : http_outcome) : option (list pyval) :=
  match o with
  | RequestException => None
  | Received response =>
      if (status_code response =? 200)%Z then
        catch (data <- json response ;;
               features <- Py.getitem data "features" ;;
               Py.iter features)
      else None
  end.

(** The fetch fails: the request raised or the status is not 200. *)
Definition fetch_failed (o : http_outcome) : bool :=
  match o with
  | RequestException => true
  | Received response => negb (status_code response =? 200)%Z
  end.

(** ** The configurations of the writer *)

Section WriterInvariant.

Variable get_population_density : float -> float -> option float.

Definition writer_of (r : result unit) : writer :=
  match r with
  | Ok _ => Returned
  | Raise e => Raised e
  end.


End WriterInvariant.

(** ** The turns of the refresh loop *)

(** The fetch of this turn gives a list that is not empty. *)
Definition productive (o : http_outcome) : bool :=
  match fetch_usgs_earthquake_data o with
  | Some (_ :: _) => true
  | _ => false
  end.

(** The last productive turn, if any. *)
Fixpoint last_productive (outcomes : list http_outcome) : option http_outcome :=
  match outcomes with
  | [] => None
  | o :: later =>
      match last_productive later with
      | Some o' => Some o'
      | None => if productive o then Some o else None
      end
  end.

(** ** The opposite of an estimate *)

Definition opposite (r : result affected) : result affected :=
  match r with
  | Ok (People n) => Ok (People (- n))
  | _ => r
  end.

(** ** Examples *)

(** A density lookup that gives [d] everywhere. *)
Definition dens (d : float) : float -> float -> option float := fun _ _ => Some d.

(** The example of the specification. *)
Definition example_events : list event :=
  [(28.6, 77.2, 5.0); (19.0, 72.8, 6.0)]%float.

(** A density lookup that gives 100 at the first event and 200 at the second. *)
Definition example_density (lat lon : float) : option float :=
  if PyDict.key_eqb (lat, lon) (28.6, 77.2)%float then Some 100%float
  else if PyDict.key_eqb (lat, lon) (19.0, 72.8)%float then Some 200%float
  else None.

Definition example_dataset : dataset :=
  Dataset example_events
    [((28.6, 77.2)%float, People 785398); ((19.0, 72.8)%float, People 2261946)].

(** A second lookup, equal to the example's at the two events of the example
    and different elsewhere. *)
Definition example_density_by_latitude (lat lon : float) : option float :=
  if (lat =? 28.6)%float then Some 100%float else Some 200%float.

(** The lookup of the example, failing at the second event. *)
Definition example_density_failing (lat lon : float) : option float :=
  if (lat =? 19.0)%float then None else example_density lat lon.

(** Two events at the same coordinates. *)
Definition colliding_events : list event :=
  [(28.6, 77.2, 5.0); (28.6, 77.2, 6.0)]%float.

Definition colliding_dataset : dataset :=
  Dataset colliding_events [((28.6, 77.2)%float, People 1130973)].

(** A feature of the feed, and a payload of features. *)
Definition feature_of (lat lon magnitude : float) : pyval :=
  PyDict
    [("type", PyStr "Feature");
     ("properties", PyDict [("mag", PyNum magnitude); ("place", PyStr "India")]);
     ("geometry",
      PyDict [("type", PyStr "Point");
              ("coordinates", PyList [PyNum lon; PyNum lat; PyNum 10])])]%string.

Definition payload (features : list pyval) : http_outcome :=
  Received
    (Response 200
       (Ok (PyDict [("type", PyStr "FeatureCollection");
                    ("features", PyList features)]%string))).

(** The feature of the feed for an event: GeoJSON gives the longitude first. *)
Definition feature_of_event (e : event) : pyval :=
  let '(lat, lon, magnitude) := e in feature_of lat lon magnitude.

Definition record_of_event (e : event) : record :=
  let '(lat, lon, magnitude) := e in (PyNum lat, PyNum lon, PyNum magnitude).

(** A feature without magnitude, and one without coordinates. *)
Definition feature_without_mag : pyval :=
  PyDict
    [("properties", PyDict [("place", PyStr "India")]);
     ("geometry",
      PyDict [("coordinates", PyList [PyNum 72.8; PyNum 19.0; PyNum 10])])]%string.

Definition feature_without_coordinates : pyval :=
  PyDict
    [("properties", PyDict [("mag", PyNum 6.0)]);
     ("geometry", PyDict [("type", PyStr "Point")])]%string.

(** * Facts *)

(** ** Facts on binary64 values

    The primitive operations are specified by the functions of [SpecFloat]
    on [spec_float]; the facts below are proved there and carried over. *)

Module SFFacts.

Import SF.

Lemma round_signed (s : bool) (m e : Z) (l : location) :
  signed s (binary_round_aux prec emax s m e l).
Proof.
  unfold binary_round_aux.
  destruct (shr_fexp prec emax m e l) as [mrs' e'].
  destruct (shr_fexp prec emax _ e' loc_Exact) as [mrs'' e''].
  destruct (shr_m mrs''); simpl; trivial.
  destruct (Z.leb e'' _); simpl; reflexivity.
Qed.

Lemma round_opp (s : bool) (m e : Z) (l : location) :
  binary_round_aux prec emax (negb s) m e l
  = SFopp (binary_round_aux prec emax s m e l).
Proof.
  unfold binary_round_aux.
  destruct (shr_fexp prec emax m e l) as [mrs' e'].
  destruct (shr_fexp prec emax _ e' loc_Exact) as [mrs'' e''].
  destruct (shr_m mrs''); simpl; trivial.
  destruct (Z.leb e'' _); reflexivity.
Qed.

Lemma signed_nonneg (x : spec_float) : signed false x -> nonneg x.
Proof. destruct x; simpl; auto. Qed.

Lemma mul_nonneg (x y : spec_float) :
  nonneg x -> nonneg y -> nonneg (SF64mul x y).
Proof.
  destruct x as [sx|sx| |sx mx ex], y as [sy|sy| |sy my ey]; simpl;
    intros Hx Hy; subst; trivial.
  apply signed_nonneg, (round_signed false).
Qed.

Lemma square_nonneg (x : spec_float) : nonneg (SF64mul x x).
Proof.
  destruct x as [s|s| |s m e]; simpl; trivial.
  - apply xorb_nilpotent.
  - apply signed_nonneg. rewrite xorb_nilpotent. apply round_signed.
Qed.

Lemma mul_opp_l (x y : spec_float) :
  SF64mul (SFopp x) y = SFopp (SF64mul x y).
Proof.
  destruct x as [sx|sx| |sx mx ex], y as [sy|sy| |sy my ey]; simpl;
    rewrite <- ?negb_xorb_l; trivial.
  apply round_opp.
Qed.

Lemma square_opp (x : spec_float) :
  SF64mul (SFopp x) (SFopp x) = SF64mul x x.
Proof.
  destruct x as [s|s| |s m e]; simpl; trivial;
    now replace (xorb (negb s) (negb s)) with (xorb s s) by now destruct s.
Qed.

Lemma finite_opp (x : spec_float) : finite (SFopp x) = finite x.
Proof. now destruct x. Qed.

Lemma compare_finite_eq (s s' : bool) (m m' : positive) (e e' : Z) :
  SFcompare (S754_finite s m e) (S754_finite s' m' e') = Some Eq
  <-> s = s' /\ m = m' /\ e = e'.
Proof.
  split.
  - simpl. destruct s, s'; try discriminate;
      destruct (Z.compare_spec e e') as [He|He|He]; try discriminate;
      destruct (Pos.compare_cont Eq m m') eqn:Hm; try discriminate;
      apply (Pos.compare_eq m m') in Hm; subst; auto.
  - intros (-> & -> & ->). simpl.
    rewrite Z.compare_refl, Pos.compare_cont_refl. now destruct s'.
Qed.

Lemma eqb_same (x y : spec_float) : SFeqb x y = true <-> same x y.
Proof.
  unfold SFeqb.
  destruct x as [s|s| |s m e], y as [s'|s'| |s' m' e']; cbn [same];
    try (rewrite <- compare_finite_eq;
         destruct (SFcompare _ _) as [[]|]; split; congruence);
    simpl; try destruct s; try destruct s'; simpl;
    split; intros; auto; congruence || contradiction.
Qed.

Lemma same_sym (x y : spec_float) : same x y -> same y x.
Proof.
  destruct x, y; simpl; try tauto; try congruence.
  intros (-> & -> & ->); auto.
Qed.

Lemma same_trans (x y z : spec_float) : same x y -> same y z -> same x z.
Proof.
  destruct x, y, z; simpl; try tauto; try congruence.
  intros (-> & -> & ->); auto.
Qed.

Lemma leb_zero_nonneg (x : spec_float) :
  SFleb (S754_zero false) x = true -> nonneg x.
Proof.
  unfold SFleb. destruct x as [s|s| |s m e]; simpl; trivial;
    destruct s; congruence.
Qed.


End SFFacts.

(** The primitive predicates, read on the specification side. *)
Module FloatFacts.

Lemma zero_spec : Prim2SF 0 = S754_zero false.
Proof. reflexivity. Qed.

Lemma is_nan_spec (x : float) :
  is_nan x = match Prim2SF x with S754_nan => true | _ => false end.
Proof.
  unfold is_nan. rewrite FloatAxioms.eqb_spec.
  destruct (Prim2SF x) as [s|s| |s m e] eqn:E; trivial;
    apply negb_false_iff, SFFacts.eqb_same; simpl; auto.
Qed.

Lemma is_infinity_spec (x : float) :
  is_infinity x = match Prim2SF x with S754_infinity _ => true | _ => false end.
Proof.
  unfold is_infinity. rewrite FloatAxioms.eqb_spec, abs_spec.
  change (Prim2SF infinity) with (S754_infinity false).
  now destruct (Prim2SF x) as [s|s| |s m e].
Qed.

Lemma is_finite_spec (x : float) : is_finite x = SF.finite (Prim2SF x).
Proof.
  unfold is_finite. rewrite is_nan_spec, is_infinity_spec.
  now destruct (Prim2SF x).
Qed.

Lemma eqb_sym (x y : float) : (x =? y)%float = true -> (y =? x)%float = true.
Proof. rewrite !FloatAxioms.eqb_spec, !SFFacts.eqb_same. apply SFFacts.same_sym. Qed.

Lemma eqb_trans (x y z : float) :
  (x =? y)%float = true -> (y =? z)%float = true -> (x =? z)%float = true.
Proof. rewrite !FloatAxioms.eqb_spec, !SFFacts.eqb_same. apply SFFacts.same_trans. Qed.

Lemma leb_zero_sign (x : float) :
  (0 <=? x)%float = true -> SF.nonneg (Prim2SF x).
Proof. rewrite leb_spec, zero_spec. apply SFFacts.leb_zero_nonneg. Qed.

(** On a value that is not negative, [int] rounds down. *)
Lemma to_int_floor (x : float) :
  SF.nonneg (Prim2SF x) -> SF.finite (Prim2SF x) = true ->
  exists n : Z, PySpec.floor x = Some n /\ PyFloat.to_int x = Ok n /\ (0 <= n)%Z.
Proof.
  unfold PySpec.floor, PyFloat.to_int.
  destruct (Prim2SF x) as [s|s| |s m e]; simpl; try discriminate.
  - intros _ _. exists 0%Z. repeat split. lia.
  - intros -> _. exists (Z.shiftl (Zpos m) e). repeat split.
    apply Z.shiftl_nonneg. lia.
Qed.

Lemma ten_spec : Prim2SF 10 = S754_finite false 5629499534213120 (-49).
Proof. reflexivity. Qed.

Lemma np_pi_spec : Prim2SF PyFloat.np_pi = S754_finite false 7074237752028440 (-51).
Proof. reflexivity. Qed.

Lemma to_int_ok_finite (x : float) (n : Z) :
  PyFloat.to_int x = Ok n -> SF.finite (Prim2SF x) = true.
Proof. unfold PyFloat.to_int. now destruct (Prim2SF x). Qed.

Lemma opp_mul (x y : float) : (- x * y = - (x * y))%float.
Proof.
  apply Prim2SF_inj. now rewrite opp_spec, !mul_spec, opp_spec, SFFacts.mul_opp_l.
Qed.

Lemma opp_square (x : float) : (- x * - x = x * x)%float.
Proof. apply Prim2SF_inj. now rewrite !mul_spec, opp_spec, SFFacts.square_opp. Qed.

Lemma is_finite_opp (x : float) : is_finite (- x) = is_finite x.
Proof. now rewrite !is_finite_spec, opp_spec, SFFacts.finite_opp. Qed.

Lemma pow2_opp (x : float) : PyFloat.pow2 (- x) = PyFloat.pow2 x.
Proof. unfold PyFloat.pow2. now rewrite opp_square, is_finite_opp. Qed.

Lemma pow2_ok (x y : float) : PyFloat.pow2 x = Ok y -> y = (x * x)%float.
Proof.
  unfold PyFloat.pow2. destruct (is_finite x && is_infinity _); congruence.
Qed.

Lemma to_int_not_finite (x : float) :
  SF.finite (Prim2SF x) = false -> exists e, PyFloat.to_int x = Raise e.
Proof. unfold PyFloat.to_int. destruct (Prim2SF x); try discriminate; eauto. Qed.

(** A magnitude that is not finite makes the radius and the product of the
    density and the area not finite either. *)
Lemma not_finite_exposure (d m : float) :
  SF.finite (Prim2SF m) = false ->
  SF.finite (Prim2SF (m * 10)) = false
  /\ SF.finite (Prim2SF (d * (PyFloat.np_pi * (m * 10 * (m * 10))))) = false.
Proof.
  rewrite !mul_spec, ten_spec, np_pi_spec.
  destruct (Prim2SF m) as [s|s| |s mm e]; try discriminate; intros _;
    destruct (Prim2SF d); simpl; auto.
Qed.

End FloatFacts.

(** ** The estimate against the formula of the specification *)


Lemma exposure_nonneg (d m : float) :
  (0 <=? d)%float = true -> SF.nonneg (Prim2SF (exposure d m)).
Proof.
  intros Hd. unfold exposure, impact_area_km2. rewrite !mul_spec.
  apply SFFacts.mul_nonneg; [now apply FloatFacts.leb_zero_sign |].
  apply SFFacts.mul_nonneg; [reflexivity | apply SFFacts.square_nonneg].
Qed.


Section EstimatorFacts.

Variable get_population_density : float -> float -> option float.

Local Abbreviation estimate := (estimate_affected_people get_population_density).


Lemma estimate_known (lat lon m d : float) :
  get_population_density lat lon = Some d ->
  estimate lat lon m =
    (sq <- PyFloat.pow2 (impact_radius_km m) ;;
     n <- PyFloat.to_int (d * (PyFloat.np_pi * sq)) ;;
     Ok (People n)).
Proof. unfold estimate_affected_people. now intros ->. Qed.




(** C2 (amended). With a sampled density that is not negative the number
    returned is never negative; the sign of the magnitude is squared away, so
    a negative magnitude gives the result of the opposite magnitude (and not
    ["Unknown"]); with a known density and a magnitude that is not finite the
    call raises, so that no negative or NaN value is returned. *)
Theorem estimate_sign (lat lon : float) :
  (forall m d n,
      get_population_density lat lon = Some d -> (0 <=? d)%float = true ->
      estimate_affected_people get_population_density lat lon m = Ok (People n) ->
      (0 <= n)%Z)
  /\ (forall m,
        estimate_affected_people get_population_density lat lon (- m)
        = estimate_affected_people get_population_density lat lon m)
  /\ (forall m d,
        get_population_density lat lon = Some d -> is_finite m = false ->
        exists e, estimate_affected_people get_population_density lat lon m = Raise e).
Proof.
  split; [| split].
  - intros m d n Hd Hd0. rewrite (estimate_known _ _ m _ Hd).
    destruct (PyFloat.pow2 _) as [sq|] eqn:Hsq; simpl; [| discriminate].
    apply FloatFacts.pow2_ok in Hsq. subst sq.
    change (d * _)%float with (exposure d m).
    destruct (PyFloat.to_int _) as [k|] eqn:Hk; simpl; [| discriminate].
    intros [= <-].
    destruct (FloatFacts.to_int_floor _ (exposure_nonneg d m Hd0)
                (FloatFacts.to_int_ok_finite _ _ Hk)) as (k' & _ & Hk' & Hpos).
    congruence.
  - intros m. unfold estimate_affected_people.
    destruct (get_population_density lat lon); trivial.
    now rewrite FloatFacts.opp_mul, FloatFacts.pow2_opp.
  - intros m d Hd Hm. rewrite (estimate_known _ _ m _ Hd).
    rewrite FloatFacts.is_finite_spec in Hm.
    destruct (FloatFacts.not_finite_exposure d m Hm) as [Hr Hp].
    unfold PyFloat.pow2, impact_radius_km.
    rewrite FloatFacts.is_finite_spec, Hr. simpl.
    destruct (FloatFacts.to_int_not_finite _ Hp) as [e ->]. simpl. eauto.
Qed.

End EstimatorFacts.



(** C2, at a concrete event. *)
Lemma estimate_sign_witness : (0 <= 785398)%Z.
Proof.
  apply (proj1 (estimate_sign (dens 100) 28.6 77.2) 5%float 100%float 785398%Z);
    reflexivity.
Defined.

Lemma estimate_sign_counterexample :
  estimate_affected_people (dens 100) 28.6 77.2 (-5) = Ok (People 785398)
  /\ estimate_affected_people (dens 100) 28.6 77.2 infinity = Raise OverflowError
  /\ estimate_affected_people (dens 100) 28.6 77.2 nan = Raise ValueError
  /\ estimate_affected_people (dens (-99999)) 28.6 77.2 5 = Ok (People (-785390309)).
Proof. repeat split. Qed.

(** ** Facts on the dictionary *)

Module PyDictFacts.

Import PyDict.

Lemma key_eqb_sym (k k' : coords) : key_eqb k k' = true -> key_eqb k' k = true.
Proof.
  unfold key_eqb. rewrite !andb_true_iff.
  intros [H1 H2]; split; now apply FloatFacts.eqb_sym.
Qed.

Lemma key_eqb_trans (k1 k2 k3 : coords) :
  key_eqb k1 k2 = true -> key_eqb k2 k3 = true -> key_eqb k1 k3 = true.
Proof.
  unfold key_eqb. rewrite !andb_true_iff.
  intros [H1 H2] [H3 H4]; split; eapply FloatFacts.eqb_trans; eassumption.
Qed.

(** A lookup after an assignment. *)
Lemma get_setitem {V : Type} (k k' : coords) (v : V) (d : t V) :
  get k (setitem k' v d) = if key_eqb k' k then Some v else get k d.
Proof.
  induction d as [|[k0 v0] d IH]; simpl; trivial.
  destruct (key_eqb k0 k') eqn:E0; simpl.
  - destruct (key_eqb k' k) eqn:E1.
    + now rewrite (key_eqb_trans _ _ _ E0 E1).
    + destruct (key_eqb k0 k) eqn:E2; trivial.
      now rewrite (key_eqb_trans _ _ _ (key_eqb_sym _ _ E0) E2) in E1.
  - rewrite IH. destruct (key_eqb k0 k) eqn:E2; trivial.
    destruct (key_eqb k' k) eqn:E1; trivial.
    now rewrite (key_eqb_trans _ _ _ E2 (key_eqb_sym _ _ E1)) in E0.
Qed.

Lemma keys_setitem {V : Type} (k : coords) (v : V) (d : t V) :
  keys (setitem k v d) = if mem k (keys d) then keys d else keys d ++ [k].
Proof.
  unfold keys, mem. induction d as [|[k0 v0] d IH]; simpl; trivial.
  destruct (key_eqb k0 k); simpl; trivial.
  rewrite IH. now destruct (existsb _ _).
Qed.

End PyDictFacts.




Section PipelineFacts.

Variable get_population_density : float -> float -> option float.

Local Abbreviation estimate := (estimate_affected_people get_population_density).

Lemma process_events_heatmap (usgs_data : list event) (st st' : dataset) :
  process_events get_population_density usgs_data st = (st', Ok tt) ->
  heatmap_data st' = heatmap_data st ++ usgs_data.
Proof.
  revert st. induction usgs_data as [|[[lat lon] m] rest IH]; intros st; simpl.
  - intros [= <-]. now rewrite app_nil_r.
  - destruct (estimate lat lon m) as [a|]; [| discriminate].
    intros H. apply IH in H. simpl in H. now rewrite <- app_assoc in H.
Qed.

Lemma process_events_keys (usgs_data : list event) (st st' : dataset) :
  process_events get_population_density usgs_data st = (st', Ok tt) ->
  PyDict.keys (population_data st') =
    PyDict.keys (population_data st)
    ++ first_seen (PyDict.keys (population_data st)) (map coords_of usgs_data).
Proof.
  revert st. induction usgs_data as [|[[lat lon] m] rest IH]; intros st; simpl.
  - intros [= <-]. now rewrite app_nil_r.
  - destruct (estimate lat lon m) as [a|]; [| discriminate].
    intros H. apply IH in H. simpl in H.
    rewrite PyDictFacts.keys_setitem in H.
    destruct (PyDict.mem (lat, lon) _); trivial.
    now rewrite <- app_assoc in H.
Qed.

Lemma process_events_get (usgs_data : list event) (st st' : dataset) (k : coords) :
  process_events get_population_density usgs_data st = (st', Ok tt) ->
  match last_at k usgs_data with
  | Some (lat, lon, m) =>
      exists a, estimate lat lon m = Ok a /\ PyDict.get k (population_data st') = Some a
  | None => PyDict.get k (population_data st') = PyDict.get k (population_data st)
  end.
Proof.
  revert st. induction usgs_data as [|[[lat lon] m] rest IH]; intros st; simpl.
  - now intros [= <-].
  - destruct (estimate lat lon m) as [a|] eqn:Ea; [| discriminate].
    intros H. apply IH in H. simpl in H.
    destruct (last_at k rest) as [[[lat' lon'] m']|]; trivial.
    rewrite PyDictFacts.get_setitem in H.
    destruct (PyDict.key_eqb (lat, lon) k); eauto.
Qed.

Lemma process_usgs_data_nonempty (usgs_data : list event) (st : dataset) :
  usgs_data <> [] ->
  process_usgs_data get_population_density usgs_data st = process_events get_population_density usgs_data (Dataset [] []).
Proof. now destruct usgs_data. Qed.


(** C10. After a batch that is not empty has been processed, the value stored
    at any coordinates is the estimate of the last event of the batch at these
    coordinates, and [heatmap_data] holds one entry per event of the batch. *)
Theorem last_write_wins (usgs_data : list event) (st st' : dataset) :
  usgs_data <> [] ->
  process_usgs_data get_population_density usgs_data st = (st', Ok tt) ->
  heatmap_data st' = usgs_data
  /\ List.length (heatmap_data st') = List.length usgs_data
  /\ forall (k : coords) (lat lon m : float),
       last_at k usgs_data = Some (lat, lon, m) ->
       exists a, estimate_affected_people get_population_density lat lon m = Ok a
                 /\ PyDict.get k (population_data st') = Some a.
Proof.
  intros Hne H. rewrite (process_usgs_data_nonempty _ st Hne) in H.
  pose proof (process_events_heatmap _ _ _ H) as Hh. simpl in Hh.
  repeat split; trivial.
  - now rewrite Hh.
  - intros k lat lon m Hk.
    pose proof (process_events_get _ _ _ k H) as Hg. now rewrite Hk in Hg.
Qed.

End PipelineFacts.

(** The loop only asks the lookup for the coordinates of the batch. *)
Lemma process_events_same_lookup (lookup1 lookup2 : float -> float -> option float)
    (usgs_data : list event) (st : dataset) :
  (forall lat lon m, In (lat, lon, m) usgs_data -> lookup2 lat lon = lookup1 lat lon) ->
  process_events lookup2 usgs_data st = process_events lookup1 usgs_data st.
Proof.
  revert st. induction usgs_data as [|[[lat lon] m] rest IH]; intros st Hsame;
    simpl; trivial.
  unfold estimate_affected_people.
  rewrite (Hsame lat lon m) by now left.
  destruct (lookup1 lat lon) as [d|]; simpl.
  - destruct (PyFloat.pow2 _) as [sq|]; simpl; trivial.
    destruct (PyFloat.to_int _); simpl; trivial.
    apply IH. intros lat' lon' m' Hin. apply (Hsame lat' lon' m'). now right.
  - apply IH. intros lat' lon' m' Hin. apply (Hsame lat' lon' m'). now right.
Qed.

(** C7. Processing the same batch twice in a row, the density lookup giving
    the same value at the coordinates of each event both times, leaves the
    same [heatmap_data] and the same [population_data] (and the same outcome)
    after the second run as after the first. *)
Theorem process_twice_same (lookup1 lookup2 : float -> float -> option float)
    (usgs_data : list event) (st : dataset) :
  (forall lat lon m, In (lat, lon, m) usgs_data -> lookup2 lat lon = lookup1 lat lon) ->
  heatmap_data
    (fst (process_usgs_data lookup2 usgs_data
            (fst (process_usgs_data lookup1 usgs_data st))))
  = heatmap_data (fst (process_usgs_data lookup1 usgs_data st))
  /\ population_data
       (fst (process_usgs_data lookup2 usgs_data
               (fst (process_usgs_data lookup1 usgs_data st))))
     = population_data (fst (process_usgs_data lookup1 usgs_data st))
  /\ process_usgs_data lookup2 usgs_data
       (fst (process_usgs_data lookup1 usgs_data st))
     = process_usgs_data lookup1 usgs_data st.
Proof.
  intros Hsame.
  assert (H : process_usgs_data lookup2 usgs_data
                (fst (process_usgs_data lookup1 usgs_data st))
              = process_usgs_data lookup1 usgs_data st).
  { destruct usgs_data as [|e rest]; trivial.
    unfold process_usgs_data, fst. now apply process_events_same_lookup. }
  now rewrite H.
Qed.

Lemma process_twice_same_witness :
  heatmap_data
    (fst (process_usgs_data example_density_by_latitude example_events
            (fst (process_usgs_data example_density example_events colliding_dataset))))
  = heatmap_data (fst (process_usgs_data example_density example_events colliding_dataset))
  /\ population_data
       (fst (process_usgs_data example_density_by_latitude example_events
               (fst (process_usgs_data example_density example_events colliding_dataset))))
     = population_data
         (fst (process_usgs_data example_density example_events colliding_dataset))
  /\ process_usgs_data example_density_by_latitude example_events
       (fst (process_usgs_data example_density example_events colliding_dataset))
     = process_usgs_data example_density example_events colliding_dataset.
Proof.
  apply (process_twice_same example_density example_density_by_latitude
           example_events colliding_dataset).
  intros lat lon m [H|[H|[]]]; injection H as <- <- <-; reflexivity.
Defined.

(** C8 (amended). For the two events of the example, with densities 100 and
    200, the estimates are 785398 and 2261946, and the alert names the event
    of magnitude 6.0. *)
Theorem example_estimates :
  estimate_affected_people example_density 28.6 77.2 5.0 = Ok (People 785398)
  /\ estimate_affected_people example_density 19.0 72.8 6.0 = Ok (People 2261946)
  /\ process_usgs_data example_density example_events empty_dataset
     = (example_dataset, Ok tt)
  /\ alert (home example_dataset) = Some (19.0, 72.8, 6.0)%float.
Proof. repeat split. Qed.

Lemma example_estimates_counterexample :
  estimate_affected_people example_density 19.0 72.8 6.0 <> Ok (People 2262743).
Proof. discriminate. Qed.

Lemma colliding_events_processed :
  process_usgs_data example_density colliding_events empty_dataset
  = (colliding_dataset, Ok tt).
Proof. reflexivity. Qed.



Lemma last_write_wins_witness :
  heatmap_data colliding_dataset = colliding_events
  /\ List.length (heatmap_data colliding_dataset) = List.length colliding_events
  /\ forall (k : coords) (lat lon m : float),
       last_at k colliding_events = Some (lat, lon, m) ->
       exists a, estimate_affected_people example_density lat lon m = Ok a
                 /\ PyDict.get k (population_data colliding_dataset) = Some a.
Proof.
  apply (last_write_wins example_density colliding_events empty_dataset).
  - discriminate.
  - reflexivity.
Defined.

(** ** Facts on the feed and on the refresh cycle *)

Lemma fetch_features (o : http_outcome) (items : list pyval) :
  features_of o = Some items ->
  fetch_usgs_earthquake_data o = catch (read_features items).
Proof.
  destruct o as [|[code body]]; simpl; [discriminate |].
  destruct (code =? 200)%Z; [| discriminate].
  destruct body as [data|]; simpl; [| discriminate].
  destruct (Py.getitem data "features") as [features|]; simpl; [| discriminate].
  destruct (Py.iter features); simpl; [| discriminate].
  now intros [= ->].
Qed.

Lemma read_features_all (items : list pyval) :
  Forall (fun f => exists r, read_feature f = Ok r) items ->
  exists rs, read_features items = Ok rs
             /\ Forall2 (fun f r => read_feature f = Ok r) items rs.
Proof.
  induction 1 as [|f items [r Hr] _ (rs & Hrs & Hall)]; simpl.
  - exists []. split; [reflexivity | constructor].
  - exists (r :: rs). rewrite Hr, Hrs. split; [reflexivity | now constructor].
Qed.

Lemma read_features_some (items : list pyval) :
  Exists (fun f => exists e, read_feature f = Raise e) items ->
  exists e, read_features items = Raise e.
Proof.
  induction 1 as [f items [e He]|f items _ [e He]]; simpl.
  - rewrite He. simpl. eauto.
  - destruct (read_feature f); simpl; eauto. rewrite He. simpl. eauto.
Qed.

(** C5 (amended). There is no skipping of records: when every item of the
    payload can be read, the tuples of all of them are returned in order; as
    soon as one item lacks its coordinates or its magnitude (reading it
    raises), the whole fetch returns [None]. *)
Theorem malformed_record_fails_fetch (o : http_outcome) (items : list pyval) :
  features_of o = Some items ->
  (Forall (fun f => exists r, read_feature f = Ok r) items ->
   exists rs, fetch_usgs_earthquake_data o = Some rs
              /\ Forall2 (fun f r => read_feature f = Ok r) items rs)
  /\ (Exists (fun f => exists e, read_feature f = Raise e) items ->
      fetch_usgs_earthquake_data o = None).
Proof.
  intros Ho. rewrite (fetch_features _ _ Ho). split.
  - intros Hall. destruct (read_features_all _ Hall) as (rs & -> & H).
    exists rs. split; [reflexivity | assumption].
  - intros Hex. now destruct (read_features_some _ Hex) as [e ->].
Qed.

Lemma malformed_record_fails_fetch_witness :
  fetch_usgs_earthquake_data
    (payload [feature_of 28.6 77.2 5.0; feature_without_mag]) = None.
Proof.
  apply (proj2 (malformed_record_fails_fetch
                  (payload [feature_of 28.6 77.2 5.0; feature_without_mag])
                  _ eq_refl)).
  apply Exists_cons_tl, Exists_cons_hd. exists KeyError. reflexivity.
Defined.

Lemma malformed_record_skipped_counterexample :
  read_feature (feature_of 28.6 77.2 5.0)
    = Ok (PyNum 28.6, PyNum 77.2, PyNum 5.0)
  /\ read_feature feature_without_mag = Raise KeyError
  /\ read_feature feature_without_coordinates = Raise KeyError
  /\ fetch_usgs_earthquake_data
       (payload [feature_of 28.6 77.2 5.0; feature_without_mag]) = None
  /\ fetch_usgs_earthquake_data
       (payload [feature_without_coordinates; feature_of 28.6 77.2 5.0]) = None
  /\ fetch_usgs_earthquake_data (payload [feature_of 28.6 77.2 5.0])
     = Some [(PyNum 28.6, PyNum 77.2, PyNum 5.0)].
Proof. repeat split. Qed.

Section RefreshFacts.

Variable get_population_density : float -> float -> option float.

Local Abbreviation cycle := (update_heatmap_cycle get_population_density).

(** C4. When the fetch fails in a cycle, because the request raised or the
    status is not 200, [fetch_usgs_earthquake_data] returns [None] and the
    cycle leaves [heatmap_data] and [population_data] exactly as they were. *)
Theorem failed_fetch_keeps_dataset (o : http_outcome) (st : dataset) :
  fetch_failed o = true ->
  fetch_usgs_earthquake_data o = None
  /\ update_heatmap_cycle get_population_density o st = Some (st, Ok tt).
Proof.
  intros Hf.
  assert (H : fetch_usgs_earthquake_data o = None).
  { destruct o as [|[code body]]; simpl in *; trivial.
    now destruct (code =? 200)%Z. }
  unfold update_heatmap_cycle. now rewrite H.
Qed.

(** C3 (amended). When the fetch succeeds with no event, the cycle leaves
    [heatmap_data] and [population_data] exactly as they were: the estimates
    and the alert of the previous cycle stay. *)
Theorem empty_fetch_keeps_dataset (o : http_outcome) (st : dataset) :
  fetch_usgs_earthquake_data o = Some [] ->
  update_heatmap_cycle get_population_density o st = Some (st, Ok tt)
  /\ process_usgs_data get_population_density [] st = (st, Ok tt).
Proof.
  intros H. unfold update_heatmap_cycle. now rewrite H.
Qed.

End RefreshFacts.

Lemma failed_fetch_keeps_dataset_witness :
  fetch_usgs_earthquake_data (Received (Response 503 (Raise ValueError))) = None
  /\ update_heatmap_cycle example_density
       (Received (Response 503 (Raise ValueError))) example_dataset
     = Some (example_dataset, Ok tt).
Proof.
  apply (failed_fetch_keeps_dataset example_density
           (Received (Response 503 (Raise ValueError))) example_dataset).
  reflexivity.
Defined.

Lemma empty_fetch_keeps_dataset_witness :
  update_heatmap_cycle example_density (payload []) example_dataset
    = Some (example_dataset, Ok tt)
  /\ process_usgs_data example_density [] example_dataset = (example_dataset, Ok tt).
Proof.
  apply (empty_fetch_keeps_dataset example_density (payload []) example_dataset).
  reflexivity.
Defined.

Lemma empty_fetch_counterexample :
  fetch_usgs_earthquake_data (payload []) = Some []
  /\ update_heatmap_cycle example_density
       (payload [feature_of 28.6 77.2 5.0; feature_of 19.0 72.8 6.0]) empty_dataset
     = Some (example_dataset, Ok tt)
  /\ update_heatmap_cycle example_density (payload []) example_dataset
     = Some (example_dataset, Ok tt)
  /\ List.length (population_data example_dataset) = 2%nat
  /\ alert (home example_dataset) = Some (19.0, 72.8, 6.0)%float.
Proof. repeat split. Qed.

(** ** Facts on the writer *)

Section WriterFacts.

Variable get_population_density : float -> float -> option float.

Local Abbreviation estimate := (estimate_affected_people get_population_density).

Lemma process_events_app (l1 l2 : list event) (st : dataset) :
  process_events get_population_density (l1 ++ l2) st =
    match process_events get_population_density l1 st with
    | (st1, Ok _) => process_events get_population_density l2 st1
    | (st1, Raise e) => (st1, Raise e)
    end.
Proof.
  revert st. induction l1 as [|[[lat lon] m] l1 IH]; intros st; simpl; trivial.
  destruct (estimate lat lon m); trivial.
Qed.

(** The statements, run to the end, do what [process_usgs_data get_population_density] does. *)
Lemma loop_runs (rest : list event) (st : dataset) :
  reaches get_population_density (Loop rest, st)
    (writer_of (snd (process_events get_population_density rest st)), fst (process_events get_population_density rest st)).
Proof.
  revert st. induction rest as [|[[lat lon] m] rest IH]; intros st.
  - eapply reaches_next; [reflexivity | apply reaches_here].
  - eapply reaches_next; [reflexivity |]. simpl.
    destruct (estimate lat lon m) as [a|e] eqn:E.
    + eapply reaches_next; [simpl; rewrite E; reflexivity | apply IH].
    + eapply reaches_next; [simpl; rewrite E; reflexivity | apply reaches_here].
Qed.

Lemma writer_runs (usgs_data : list event) (st : dataset) :
  reaches get_population_density (Called usgs_data, st)
    (writer_of (snd (process_usgs_data get_population_density usgs_data st)),
     fst (process_usgs_data get_population_density usgs_data st)).
Proof.
  destruct usgs_data as [|e rest].
  - eapply reaches_next; [reflexivity | apply reaches_here].
  - do 3 (eapply reaches_next; [reflexivity |]). apply (loop_runs (e :: rest)).
Qed.




End WriterFacts.



(** * Further properties of the code *)

(** ** The order of binary64 values *)

Module SFOrder.



End SFOrder.

Module FloatOrder.




End FloatOrder.

(** ** The alert of [create_heatmap] *)







(** ** The dataset after [process_usgs_data] *)

Lemma last_at_found (k : coords) (usgs_data : list event) (e : event) :
  In e usgs_data -> PyDict.key_eqb (coords_of e) k = true ->
  exists e', last_at k usgs_data = Some e'.
Proof.
  induction usgs_data as [|e0 rest IH]; intros Hin Hk; [contradiction |].
  simpl. destruct (last_at k rest) as [e'|] eqn:Hl; eauto.
  destruct Hin as [->|Hin].
  - rewrite Hk. eauto.
  - destruct (IH Hin Hk) as [e' He']. discriminate.
Qed.

Lemma last_at_event (k : coords) (usgs_data : list event) (e : event) :
  last_at k usgs_data = Some e ->
  In e usgs_data /\ PyDict.key_eqb (coords_of e) k = true.
Proof.
  induction usgs_data as [|e0 rest IH]; simpl; [discriminate |].
  destruct (last_at k rest) as [e'|].
  - intros [= <-]. destruct (IH eq_refl). auto.
  - destruct (PyDict.key_eqb (coords_of e0) k) eqn:Hk; [| discriminate].
    intros [= <-]. auto.
Qed.

Lemma all_new_first_seen (seen ks : list coords) :
  all_new seen (first_seen seen ks) = true.
Proof.
  revert seen. induction ks as [|k ks IH]; intros seen; simpl; trivial.
  destruct (PyDict.mem k seen) eqn:Hk; simpl; trivial.
  now rewrite Hk, IH.
Qed.

(** X3. When the estimate of an event raises, after the events before it
    were processed without exception, [process_usgs_data] ends with that
    exception: [heatmap_data] holds the events up to and including the one
    that failed, [population_data] holds the estimates of the events before
    it only, and the events after it are not processed. *)
Theorem raise_leaves_partial_dataset (lookup : float -> float -> option float)
    (done rest : list event) (lat lon m : float) (x : exn) (st st1 : dataset) :
  process_events lookup done (Dataset [] []) = (st1, Ok tt) ->
  estimate_affected_people lookup lat lon m = Raise x ->
  process_usgs_data lookup (done ++ (lat, lon, m) :: rest) st
  = (Dataset (done ++ [(lat, lon, m)]) (population_data st1), Raise x).
Proof.
  intros Hdone Hraise.
  rewrite process_usgs_data_nonempty by now destruct done.
  rewrite process_events_app, Hdone. simpl. rewrite Hraise.
  now rewrite (process_events_heatmap _ _ _ _ Hdone).
Qed.

Lemma raise_leaves_partial_dataset_witness :
  process_usgs_data example_density
    ([(28.6, 77.2, 5.0)%float] ++ (19.0, 72.8, 1e200)%float :: [(28.6, 77.2, 6.0)%float])
    example_dataset
  = (Dataset ([(28.6, 77.2, 5.0)%float] ++ [(19.0, 72.8, 1e200)%float])
       (population_data (Dataset [(28.6, 77.2, 5.0)%float]
                           [((28.6, 77.2)%float, People 785398)])),
     Raise OverflowError).
Proof.
  apply (raise_leaves_partial_dataset example_density [(28.6, 77.2, 5.0)%float]);
    reflexivity.
Defined.

(** X4. A failure of the density lookup is isolated: when a second lookup
    either agrees with the first or fails, at each pair of coordinates, a
    batch that the first lookup lets through is processed without exception
    with the second one too, with the same [heatmap_data] and the same keys;
    the value stored at any coordinates is unchanged when the lookup is
    unchanged for the last event there, and ["Unknown"] when it fails for
    it. *)
Theorem lookup_failure_is_isolated (lookup1 lookup2 : float -> float -> option float)
    (usgs_data : list event) (st st1 : dataset) :
  (forall lat lon, lookup2 lat lon = lookup1 lat lon \/ lookup2 lat lon = None) ->
  usgs_data <> [] ->
  process_usgs_data lookup1 usgs_data st = (st1, Ok tt) ->
  exists st2,
    process_usgs_data lookup2 usgs_data st = (st2, Ok tt)
    /\ heatmap_data st2 = heatmap_data st1
    /\ PyDict.keys (population_data st2) = PyDict.keys (population_data st1)
    /\ forall k lat lon m,
         last_at k usgs_data = Some (lat, lon, m) ->
         (lookup2 lat lon = lookup1 lat lon ->
          PyDict.get k (population_data st2) = PyDict.get k (population_data st1))
         /\ (lookup2 lat lon = None ->
             PyDict.get k (population_data st2) = Some Unknown).
Proof.
  intros Hfail Hne H1.
  rewrite (process_usgs_data_nonempty lookup1 _ st Hne) in H1.
  rewrite (process_usgs_data_nonempty lookup2 _ st Hne).
  assert (Hruns : forall evs sa sa' sb,
             process_events lookup1 evs sa = (sa', Ok tt) ->
             exists sb', process_events lookup2 evs sb = (sb', Ok tt)).
  { induction evs as [|[[lat lon] m] evs IH]; intros sa sa' sb; simpl; eauto.
    destruct (estimate_affected_people lookup1 lat lon m) as [a|] eqn:Ea;
      [| discriminate].
    intros Hsa. unfold estimate_affected_people at 1.
    destruct (Hfail lat lon) as [-> | ->].
    - fold (estimate_affected_people lookup1 lat lon m). rewrite Ea. eauto.
    - eauto. }
  destruct (Hruns _ _ _ (Dataset [] []) H1) as [st2 H2]. exists st2.
  split; [exact H2 |].
  rewrite (process_events_heatmap _ _ _ _ H1), (process_events_heatmap _ _ _ _ H2).
  rewrite (process_events_keys _ _ _ _ H1), (process_events_keys _ _ _ _ H2).
  repeat split; trivial.
  - intros Hsame.
    pose proof (process_events_get _ _ _ _ k H1) as G1.
    pose proof (process_events_get _ _ _ _ k H2) as G2.
    rewrite H in G1, G2.
    destruct G1 as (a1 & E1 & ->), G2 as (a2 & E2 & ->).
    unfold estimate_affected_people in E1, E2. rewrite Hsame in E2. congruence.
  - intros Hnone.
    pose proof (process_events_get _ _ _ _ k H2) as G2. rewrite H in G2.
    destruct G2 as (a2 & E2 & ->).
    unfold estimate_affected_people in E2. rewrite Hnone in E2. congruence.
Qed.

Lemma lookup_failure_is_isolated_witness :
  exists st2,
    process_usgs_data example_density_failing example_events empty_dataset = (st2, Ok tt)
    /\ heatmap_data st2 = heatmap_data example_dataset
    /\ PyDict.keys (population_data st2) = PyDict.keys (population_data example_dataset)
    /\ forall k lat lon m,
         last_at k example_events = Some (lat, lon, m) ->
         (example_density_failing lat lon = example_density lat lon ->
          PyDict.get k (population_data st2)
          = PyDict.get k (population_data example_dataset))
         /\ (example_density_failing lat lon = None ->
             PyDict.get k (population_data st2) = Some Unknown).
Proof.
  apply (lookup_failure_is_isolated example_density example_density_failing
           example_events empty_dataset example_dataset).
  - intros lat lon. unfold example_density_failing.
    destruct (lat =? 19.0)%float; auto.
  - discriminate.
  - reflexivity.
Defined.

(** X5. After a batch that is not empty has been processed, the coordinates
    stored in [population_data], that is the places of the markers of the
    map, are pairwise distinct. *)
Theorem markers_at_distinct_coordinates (lookup : float -> float -> option float)
    (usgs_data : list event) (st st' : dataset) :
  usgs_data <> [] ->
  process_usgs_data lookup usgs_data st = (st', Ok tt) ->
  all_new [] (PyDict.keys (markers (home st'))) = true.
Proof.
  intros Hne H. rewrite (process_usgs_data_nonempty lookup _ st Hne) in H.
  simpl. rewrite (process_events_keys _ _ _ _ H). simpl.
  apply all_new_first_seen.
Qed.

Lemma markers_at_distinct_coordinates_witness :
  all_new [] (PyDict.keys (markers (home colliding_dataset))) = true.
Proof.
  apply (markers_at_distinct_coordinates example_density colliding_events
           empty_dataset colliding_dataset).
  - discriminate.
  - reflexivity.
Defined.

(** X6. After a batch that is not empty has been processed, every event of
    the batch whose coordinates are numbers equal to themselves has an
    estimate stored at its coordinates, and every stored estimate is the
    estimate of an event of the batch at these coordinates: there is no marker
    without an event. *)
Theorem markers_match_events (lookup : float -> float -> option float)
    (usgs_data : list event) (st st' : dataset) :
  usgs_data <> [] ->
  process_usgs_data lookup usgs_data st = (st', Ok tt) ->
  (forall e,
      In e usgs_data -> PyDict.key_eqb (coords_of e) (coords_of e) = true ->
      exists a, PyDict.get (coords_of e) (population_data st') = Some a)
  /\ (forall k a,
        PyDict.get k (population_data st') = Some a ->
        exists lat lon m,
          In (lat, lon, m) usgs_data
          /\ PyDict.key_eqb (lat, lon) k = true
          /\ estimate_affected_people lookup lat lon m = Ok a).
Proof.
  intros Hne H. rewrite (process_usgs_data_nonempty lookup _ st Hne) in H. split.
  - intros e Hin Hk.
    destruct (last_at_found _ _ _ Hin Hk) as [[[lat lon] m] Hl].
    pose proof (process_events_get _ _ _ _ (coords_of e) H) as G.
    rewrite Hl in G. destruct G as (a & _ & G). eauto.
  - intros k a Hget.
    pose proof (process_events_get _ _ _ _ k H) as G.
    destruct (last_at k usgs_data) as [[[lat lon] m]|] eqn:Hl.
    + destruct G as (a' & Ea & G). rewrite Hget in G. injection G as <-.
      destruct (last_at_event _ _ _ Hl) as [Hin Hk].
      exists lat, lon, m. auto.
    + simpl in G. congruence.
Qed.

Lemma markers_match_events_witness :
  (forall e,
      In e colliding_events -> PyDict.key_eqb (coords_of e) (coords_of e) = true ->
      exists a, PyDict.get (coords_of e) (population_data colliding_dataset) = Some a)
  /\ (forall k a,
        PyDict.get k (population_data colliding_dataset) = Some a ->
        exists lat lon m,
          In (lat, lon, m) colliding_events
          /\ PyDict.key_eqb (lat, lon) k = true
          /\ estimate_affected_people example_density lat lon m = Ok a).
Proof.
  apply (markers_match_events example_density colliding_events
           empty_dataset colliding_dataset).
  - discriminate.
  - reflexivity.
Defined.

(** ** The loop of [update_heatmap] *)

Section LoopFacts.

Variable get_population_density : float -> float -> option float.

Lemma events_of_records_nonempty (r : record) (rs : list record) (es : list event) :
  events_of_records (r :: rs) = Some es -> es <> [].
Proof.
  simpl. destruct (event_of_record r), (events_of_records rs); try discriminate.
  now intros [= <-].
Qed.

Lemma cycle_not_productive (o : http_outcome) (st : dataset) :
  productive o = false ->
  update_heatmap_cycle get_population_density o st = Some (st, Ok tt).
Proof.
  unfold productive, update_heatmap_cycle.
  destruct (fetch_usgs_earthquake_data o) as [[|r rs]|]; trivial; discriminate.
Qed.

Lemma cycle_productive (o : http_outcome) (st st0 : dataset) :
  productive o = true ->
  update_heatmap_cycle get_population_density o st
  = update_heatmap_cycle get_population_density o st0.
Proof.
  unfold productive, update_heatmap_cycle.
  destruct (fetch_usgs_earthquake_data o) as [[|r rs]|]; try discriminate.
  intros _. destruct (events_of_records (r :: rs)) as [es|] eqn:Hes; trivial.
  apply events_of_records_nonempty in Hes. now destruct es.
Qed.

Lemma update_heatmap_app (before after : list http_outcome) (st : dataset) :
  update_heatmap get_population_density (before ++ after) st =
    match update_heatmap get_population_density before st with
    | Some (st', Ok _) => update_heatmap get_population_density after st'
    | r => r
    end.
Proof.
  revert st. induction before as [|o before IH]; intros st; simpl; trivial.
  destruct (update_heatmap_cycle get_population_density o st) as [[st' [[]|e]]|];
    trivial.
Qed.

(** X7. The turns whose fetch fails or gives no event do not count: the loop
    ends as it does when these turns are left out. *)
Theorem unproductive_turns_do_not_count (outcomes : list http_outcome) (st : dataset) :
  update_heatmap get_population_density outcomes st
  = update_heatmap get_population_density (filter productive outcomes) st.
Proof.
  revert st. induction outcomes as [|o outcomes IH]; intros st; simpl; trivial.
  destruct (productive o) eqn:Hp; simpl.
  - destruct (update_heatmap_cycle get_population_density o st)
      as [[st' [[]|e]]|]; trivial.
  - now rewrite (cycle_not_productive o st Hp).
Qed.

(** X8. No history builds up: when the loop has run some turns without
    exception, the dataset is the one it started with if no turn was
    productive, and otherwise the one that the last productive turn alone
    gives, from any dataset. *)
Theorem dataset_of_last_productive_turn (outcomes : list http_outcome)
    (st st' : dataset) :
  update_heatmap get_population_density outcomes st = Some (st', Ok tt) ->
  match last_productive outcomes with
  | None => st' = st
  | Some o =>
      forall st0, update_heatmap_cycle get_population_density o st0 = Some (st', Ok tt)
  end.
Proof.
  revert st. induction outcomes as [|o outcomes IH]; intros st; simpl.
  - now intros [= <-].
  - destruct (update_heatmap_cycle get_population_density o st)
      as [[st1 [[]|e]]|] eqn:Hc; try discriminate.
    intros H. specialize (IH _ H).
    destruct (last_productive outcomes) as [o'|]; trivial. subst st'.
    destruct (productive o) eqn:Hp.
    + intros st0. now rewrite <- (cycle_productive o st st0 Hp).
    + rewrite (cycle_not_productive o st Hp) in Hc. congruence.
Qed.

(** X9. An exception ends the refresh for good: when a turn raises, the loop
    ends with the dataset of this turn and with its exception, whatever the
    later turns would fetch. *)
Theorem raise_ends_the_loop (before after : list http_outcome) (o : http_outcome)
    (st st1 st2 : dataset) (x : exn) :
  update_heatmap get_population_density before st = Some (st1, Ok tt) ->
  update_heatmap_cycle get_population_density o st1 = Some (st2, Raise x) ->
  update_heatmap get_population_density (before ++ o :: after) st
  = Some (st2, Raise x).
Proof.
  intros Hb Ho. rewrite update_heatmap_app, Hb. simpl. now rewrite Ho.
Qed.

End LoopFacts.

Lemma dataset_of_last_productive_turn_witness :
  update_heatmap_cycle example_density
    (payload [feature_of 28.6 77.2 5.0; feature_of 19.0 72.8 6.0]) colliding_dataset
  = Some (example_dataset, Ok tt).
Proof.
  exact (dataset_of_last_productive_turn example_density
           [payload [feature_of 28.6 77.2 5.0; feature_of 28.6 77.2 6.0];
            payload [feature_of 28.6 77.2 5.0; feature_of 19.0 72.8 6.0];
            RequestException;
            payload []]
           empty_dataset example_dataset eq_refl colliding_dataset).
Defined.

Lemma raise_ends_the_loop_witness :
  update_heatmap example_density
    ([payload [feature_of 28.6 77.2 5.0; feature_of 19.0 72.8 6.0]]
     ++ payload [feature_of 28.6 77.2 1e200]
     :: [payload [feature_of 28.6 77.2 5.0]])
    empty_dataset
  = Some (Dataset [(28.6, 77.2, 1e200)%float] [], Raise OverflowError).
Proof.
  apply (raise_ends_the_loop example_density
           [payload [feature_of 28.6 77.2 5.0; feature_of 19.0 72.8 6.0]]
           [payload [feature_of 28.6 77.2 5.0]]
           (payload [feature_of 28.6 77.2 1e200])
           empty_dataset example_dataset);
    reflexivity.
Defined.

(** ** The sign of the estimate *)

Lemma to_int_opp (x : float) :
  PyFloat.to_int (- x) =
    match PyFloat.to_int x with
    | Ok n => Ok (- n)%Z
    | Raise e => Raise e
    end.
Proof.
  unfold PyFloat.to_int. rewrite opp_spec.
  destruct (Prim2SF x) as [s|s| |s m e]; simpl; trivial.
  destruct s; simpl; trivial. now rewrite Z.opp_involutive.
Qed.

(** X10. The count has the sign of the density: with the opposite density
    sample, [estimate_affected_people] returns the opposite count, and raises
    what it raised; [int] rounds toward zero and nothing clamps the result. *)
Theorem estimate_odd_in_density (lookup1 lookup2 : float -> float -> option float)
    (lat lon m d : float) :
  lookup1 lat lon = Some d -> lookup2 lat lon = Some (- d)%float ->
  estimate_affected_people lookup2 lat lon m
  = opposite (estimate_affected_people lookup1 lat lon m).
Proof.
  intros H1 H2.
  rewrite (estimate_known lookup1 lat lon m d H1).
  rewrite (estimate_known lookup2 lat lon m (- d)%float H2).
  destruct (PyFloat.pow2 (impact_radius_km m)) as [sq|]; simpl; trivial.
  rewrite FloatFacts.opp_mul, to_int_opp.
  now destruct (PyFloat.to_int _).
Qed.

Lemma estimate_odd_in_density_witness :
  estimate_affected_people (dens (- 100)) 28.6 77.2 5.0
  = opposite (estimate_affected_people (dens 100) 28.6 77.2 5.0).
Proof.
  apply (estimate_odd_in_density (dens 100) (dens (- 100)) 28.6 77.2 5.0 100);
    reflexivity.
Defined.

(** ** Reading the feed *)

Lemma read_features_of_events (usgs_data : list event) :
  read_features (map feature_of_event usgs_data)
  = Ok (map record_of_event usgs_data).
Proof.
  induction usgs_data as [|[[lat lon] m] rest IH]; trivial.
  change (read_features (map feature_of_event ((lat, lon, m) :: rest)))
    with (r <- read_feature (feature_of lat lon m) ;;
          earthquakes <- read_features (map feature_of_event rest) ;;
          Ok (r :: earthquakes)).
  now rewrite IH.
Qed.

Lemma events_of_records_of_events (usgs_data : list event) :
  events_of_records (map record_of_event usgs_data) = Some usgs_data.
Proof.
  induction usgs_data as [|[[lat lon] m] rest IH]; trivial.
  simpl. now rewrite IH.
Qed.

Lemma read_features_ok (items : list pyval) (rs : list record) :
  read_features items = Ok rs ->
  Forall2 (fun f t => read_feature f = Ok t) items rs.
Proof.
  revert rs. induction items as [|f items IH]; intros rs; simpl.
  - intros [= <-]. constructor.
  - destruct (read_feature f) as [t|] eqn:Hf; simpl; [| discriminate].
    destruct (read_features items) as [ts|]; simpl; [| discriminate].
    intros [= <-]. constructor; auto.
Qed.

(** X11. The fetch reads a GeoJSON collection: for a response of status 200
    whose features carry [coordinates = [lon, lat, depth]] and a magnitude,
    it returns the tuples [(lat, lon, magnitude)] in the order of the feed,
    the latitude taken at index 1 and the longitude at index 0, and a turn of
    the loop processes exactly these events. *)
Theorem cycle_reads_geojson (lookup : float -> float -> option float)
    (usgs_data : list event) (st : dataset) :
  fetch_usgs_earthquake_data (payload (map feature_of_event usgs_data))
  = Some (map record_of_event usgs_data)
  /\ update_heatmap_cycle lookup (payload (map feature_of_event usgs_data)) st
     = Some (process_usgs_data lookup usgs_data st).
Proof.
  assert (H : fetch_usgs_earthquake_data (payload (map feature_of_event usgs_data))
              = Some (map record_of_event usgs_data)).
  { change (fetch_usgs_earthquake_data (payload (map feature_of_event usgs_data)))
      with (catch (read_features (map feature_of_event usgs_data))).
    now rewrite read_features_of_events. }
  split; trivial. unfold update_heatmap_cycle. rewrite H.
  destruct usgs_data as [|[[lat lon] m] rest]; trivial.
  pose proof (events_of_records_of_events ((lat, lon, m) :: rest)) as He.
  cbn [map record_of_event] in *. now rewrite He.
Qed.

(** X12. The fetch returns a list only for a response of status 200 whose
    body holds a [features] entry that can be iterated, and the list then has
    exactly one tuple per item, read from it, in order. *)
Theorem fetch_gives_one_tuple_per_item (o : http_outcome) (rs : list record) :
  fetch_usgs_earthquake_data o = Some rs ->
  exists r items,
    o = Received r
    /\ status_code r = 200%Z
    /\ features_of o = Some items
    /\ Forall2 (fun f t => read_feature f = Ok t) items rs
    /\ List.length rs = List.length items.
Proof.
  destruct o as [|[code body]]; simpl; [discriminate |].
  destruct (code =? 200)%Z eqn:Hc; [| discriminate].
  destruct body as [data|]; simpl; [| discriminate].
  destruct (Py.getitem data "features") as [features|]; simpl; [| discriminate].
  destruct (Py.iter features) as [items|]; simpl; [| discriminate].
  destruct (read_features items) as [ts|] eqn:Hr; simpl; [| discriminate].
  intros [= <-]. exists (Response code (Ok data)), items.
  apply Z.eqb_eq in Hc. apply read_features_ok in Hr.
  repeat split; trivial. symmetry. eapply Forall2_length; eassumption.
Qed.

Lemma fetch_gives_one_tuple_per_item_witness :
  exists r items,
    payload [feature_of 28.6 77.2 5.0; feature_of 19.0 72.8 6.0] = Received r
    /\ status_code r = 200%Z
    /\ features_of (payload [feature_of 28.6 77.2 5.0; feature_of 19.0 72.8 6.0])
       = Some items
    /\ Forall2 (fun f t => read_feature f = Ok t) items
         [(PyNum 28.6, PyNum 77.2, PyNum 5.0); (PyNum 19.0, PyNum 72.8, PyNum 6.0)]
    /\ List.length
         [(PyNum 28.6, PyNum 77.2, PyNum 5.0); (PyNum 19.0, PyNum 72.8, PyNum 6.0)]
       = List.length items.
Proof.
  apply (fetch_gives_one_tuple_per_item
           (payload [feature_of 28.6 77.2 5.0; feature_of 19.0 72.8 6.0])).
  reflexivity.
Defined.

(** ** What a reader sees of a refresh *)



